(** * DataMonitor: a shallow embedding of [data_monitor.py]

    The monitor keeps a "current data" slot that a producer writes through a
    cross-process queue and that a render worker reads once per animation
    tick.  This development embeds the class [DataMonitor] method by method
    and proves the properties its specification states about the data
    handoff, the render tick and the lifecycle.

    Conventions of the embedding:
    - Python values are the inductive [Value]; dictionaries passed as
      keyword arguments are [gmap string Value]; the [plt_kwargs]
      dictionary is the sequence of its [items()], since the code iterates
      over it in order.
    - A method is a computation [M A]: it reads and writes the world (the
      monitor object and the log of calls received by [matplotlib.pyplot])
      and either returns or raises.  What was written before an exception
      stays written, as in Python.
    - [matplotlib.pyplot], [numpy.ndim] and [multiprocessing] are the
      environment.  A pyplot call is recorded in the log; the queue and the
      process are small state machines for the operations the class uses. *)

From Stdlib Require Import ZArith.
From stdpp Require Import base option list strings gmap.

Open Scope Z_scope.
Open Scope list_scope.

(** ** Python values and exceptions *)

#[warnings="-register-all"]
Inductive Value : Type :=
  | VNone
  | VNum (z : Z)
  | VStr (s : string)
  | VSeq (elems : list Value).

Inductive Exn : Type :=
  | TimeoutError
  | Empty
  | AttributeError
  | TypeError
  | ValueError
  | IndexError
  | AssertionError.

Inductive Result (A : Type) : Type :=
  | Ok (a : A)
  | Raise (e : Exn).
Arguments Ok {A} a.
Arguments Raise {A} e.

(** One call received by [matplotlib.pyplot]: the attribute [name] applied
    to the positional arguments [args] and the keyword arguments [kw]. *)
Inductive PltCall : Type :=
  | Call (name : string) (args : list Value) (kw : gmap string Value).

(** ** The environment: queue and process *)

Module Queue.

(** [multiprocessing.Queue]: the pending items, oldest first, and whether
    [close()] has been called on it. *)
Record t : Type := Make { items : list Value; closed : bool }.

Definition new : t := {| items := []; closed := false |}.

(** [q.put(value)]: appends at the tail. *)
Definition put (value : Value) (q : t) : Result unit * t :=
  if closed q then (Raise ValueError, q)
  else (Ok tt, {| items := items q ++ [value]; closed := false |}).

(** [q.get(timeout=...)].  [arrivals] are the items that the other
    process enqueues while this call waits; the call returns the oldest
    item among the pending ones and the arrivals, and raises [Empty] when
    the wait window ends with nothing to return. *)
Definition get (arrivals : list Value) (q : t) : Result Value * t :=
  if closed q then (Raise ValueError, q)
  else match items q ++ arrivals with
       | [] => (Raise Empty, q)
       | v :: rest => (Ok v, {| items := rest; closed := false |})
       end.

Definition close (q : t) : Result unit * t :=
  (Ok tt, {| items := items q; closed := true |}).

End Queue.

Module Process.

(** [multiprocessing.Process], as far as the class drives it. *)
Inductive t : Type :=
  | Initial       (* constructed, not started *)
  | Running       (* started, alive *)
  | Terminated    (* terminate() was sent, not yet joined *)
  | Joined.       (* joined after termination *)

Definition start (p : t) : Result unit * t :=
  match p with
  | Initial => (Ok tt, Running)
  | _ => (Raise AssertionError, p)
  end.

Definition terminate (p : t) : Result unit * t :=
  match p with
  | Initial => (Raise AttributeError, p)
  | Running => (Ok tt, Terminated)
  | _ => (Ok tt, p)
  end.

(** [join()] after [terminate()] reaps the process.  The class never
    joins a running worker. *)
Definition join (p : t) : Result unit * t :=
  match p with
  | Initial => (Raise AssertionError, p)
  | Terminated => (Ok tt, Joined)
  | _ => (Ok tt, p)
  end.

Definition is_alive (p : t) : bool :=
  match p with
  | Running => true
  | _ => false
  end.

End Process.

(** ** The object *)

(** A figure or axes handle: made by pyplot, or passed in by the caller. *)
Inductive Handle : Type :=
  | Created (by_call : string)
  | Supplied (obj : Value).

(** [matplotlib.animation.FuncAnimation] on the figure of the monitor,
    with [animate] as its callback: what remains is the timer interval. *)
Record FuncAnimation : Type := { interval : Z }.

Record DataMonitor : Type := {
  _data : Value;
  channels : option (list (gmap string Value));
  clear_axes : bool;
  fig : Handle;
  ax : Handle;
  fig_kwargs : gmap string Value;
  plt_kwargs : list (string * (list Value * gmap string Value));
  _func_animation : option FuncAnimation;
  update_rate : Z;
  _show_process : option Process.t;
  _data_queue : option Queue.t
}.

Record World : Type := {
  self : DataMonitor;
  pyplot : list PltCall
}.

(** ** Computations *)

Definition M (A : Type) : Type := World -> Result A * World.

Definition ret {A} (a : A) : M A := fun w => (Ok a, w).

Definition raise {A} (e : Exn) : M A := fun w => (Raise e, w).

Definition bind {A B} (c : M A) (k : A -> M B) : M B :=
  fun w =>
    match c w with
    | (Ok a, w') => k a w'
    | (Raise e, w') => (Raise e, w')
    end.

#[global] Instance M_ret : MRet M := @ret.
#[global] Instance M_bind : MBind M := fun A B k c => bind c k.

(** [try: body  except <handled>: handler]. *)
Definition try_except (body : M unit) (handled : Exn -> bool)
    (handler : M unit) : M unit :=
  fun w =>
    match body w with
    | (Ok tt, w') => (Ok tt, w')
    | (Raise e, w') => if handled e then handler w' else (Raise e, w')
    end.

Definition lift {A} (r : Result A) : M A := fun w => (r, w).

Fixpoint for_each {A} (xs : list A) (body : A -> M unit) : M unit :=
  match xs with
  | [] => ret tt
  | x :: xs' => body x ;; for_each xs' body
  end.

(** [for i in range(n): body]. *)
Definition for_range (n : nat) (body : nat -> M unit) : M unit :=
  for_each (seq 0 n) body.

Definition get_self : M DataMonitor := fun w => (Ok (self w), w).

Definition put_self (m : DataMonitor) : M unit :=
  fun w => (Ok tt, {| self := m; pyplot := pyplot w |}).

(** A call of the pyplot attribute [name]: it is appended to the log. *)
Definition plt (name : string) (args : list Value) (kw : gmap string Value)
    : M unit :=
  fun w => (Ok tt, {| self := self w; pyplot := pyplot w ++ [Call name args kw] |}).

(** Attribute assignments [self.<field> = ...]. *)
Definition with_data (v : Value) (m : DataMonitor) : DataMonitor :=
  {| _data := v; channels := channels m; clear_axes := clear_axes m;
     fig := fig m; ax := ax m; fig_kwargs := fig_kwargs m;
     plt_kwargs := plt_kwargs m; _func_animation := _func_animation m;
     update_rate := update_rate m;
     _show_process := _show_process m; _data_queue := _data_queue m |}.

Definition with_queue (q : option Queue.t) (m : DataMonitor) : DataMonitor :=
  {| _data := _data m; channels := channels m; clear_axes := clear_axes m;
     fig := fig m; ax := ax m; fig_kwargs := fig_kwargs m;
     plt_kwargs := plt_kwargs m; _func_animation := _func_animation m;
     update_rate := update_rate m;
     _show_process := _show_process m; _data_queue := q |}.


Definition with_process (p : option Process.t) (m : DataMonitor) : DataMonitor :=
  {| _data := _data m; channels := channels m; clear_axes := clear_axes m;
     fig := fig m; ax := ax m; fig_kwargs := fig_kwargs m;
     plt_kwargs := plt_kwargs m; _func_animation := _func_animation m;
     update_rate := update_rate m;
     _show_process := p; _data_queue := _data_queue m |}.

(** [self._data_queue.<method>(...)]: an attribute access on [None] raises
    [AttributeError]; otherwise the method runs on the queue. *)
Definition on_queue {A} (method : Queue.t -> Result A * Queue.t) : M A :=
  m ← get_self;
  match _data_queue m with
  | None => raise AttributeError
  | Some q =>
      let '(r, q') := method q in
      put_self (with_queue (Some q') m) ;; lift r
  end.

(** [self._show_process.<method>()]. *)
Definition on_process {A} (method : Process.t -> Result A * Process.t) : M A :=
  m ← get_self;
  match _show_process m with
  | None => raise AttributeError
  | Some p =>
      let '(r, p') := method p in
      put_self (with_process (Some p') m) ;; lift r
  end.

(** ** The data property *)

(** The [except (TimeoutError, Empty)] clause. *)
Definition timeout_or_empty (e : Exn) : bool :=
  match e with
  | TimeoutError | Empty => true
  | _ => false
  end.

(** The getter, over any dequeue operation: the [try] block stores what
    the dequeue returns, the [except] clause passes, and the stored
    [_data] is returned. *)
Definition data_getter_with (dequeue : Queue.t -> Result Value * Queue.t)
    : M Value :=
  try_except
    (v ← on_queue dequeue;
     m ← get_self;
     put_self (with_data v m))
    timeout_or_empty
    (ret tt) ;;
  m ← get_self;
  ret (_data m).

(** [DataMonitor.data] (getter): the dequeue is
    [self._data_queue.get(timeout=self.update_rate)]. *)
Definition data_getter (arrivals : list Value) : M Value :=
  data_getter_with (Queue.get arrivals).

(** [DataMonitor.data] (setter). *)
Definition data_setter (value : Value) : M unit :=
  on_queue (Queue.put value).

(** ** Plotting *)

(** Iterating over a string yields its characters. *)
Fixpoint chars (s : string) : list Value :=
  match s with
  | EmptyString => []
  | String c s' => VStr (String c EmptyString) :: chars s'
  end.

(** [x, *y = data]: [data] must be iterable and have a first element. *)
Definition unpack_first_rest (data : Value) : Result (Value * list Value) :=
  match data with
  | VNone | VNum _ => Raise TypeError
  | VStr s =>
      match chars s with
      | [] => Raise ValueError
      | x :: y => Ok (x, y)
      end
  | VSeq [] => Raise ValueError
  | VSeq (x :: y) => Ok (x, y)
  end.

(** [numpy.ndim] on nested sequences of equal lengths (arrays): the
    nesting depth, read along the first elements. *)
Fixpoint ndim (v : Value) : nat :=
  match v with
  | VNone | VNum _ | VStr _ => 0
  | VSeq [] => 1
  | VSeq (v' :: _) => S (ndim v')
  end.

(** [l[i]] for [i >= 0]. *)
Definition index {A} (l : list A) (i : nat) : M A :=
  match l !! i with
  | Some a => ret a
  | None => raise IndexError
  end.

(** [if np.ndim(y) == 1: y = [y]]. *)
Definition as_series (y : list Value) : list Value :=
  if Nat.eqb (ndim (VSeq y)) 1 then [VSeq y] else y.

(** The body of the loop of [plot], for the index [i]. *)
Definition plot_one (x : Value) (y : list Value) (i : nat) : M unit :=
  m ← get_self;
  c ← match channels m with
      | None => ret ∅
      | Some cs => index cs i
      end;
  yi ← index y i;
  plt "plot" [x; yi] c.

(** [DataMonitor.plot]. *)
Definition plot (data : Value) : M unit :=
  '(x, y) ← lift (unpack_first_rest data);
  let y := as_series y in
  for_range (length y) (plot_one x y).

(** ['label' in c]. *)
Definition has_label (c : gmap string Value) : bool :=
  bool_decide (is_Some (c !! "label")).

(** [DataMonitor.apply_plt_kwargs]. *)
Definition apply_plt_kwargs : M unit :=
  m ← get_self;
  for_each (plt_kwargs m) (fun '(attribute, (args, kwargs)) =>
    plt attribute args kwargs) ;;
  m ← get_self;
  match channels m with
  | Some cs => if existsb has_label cs then plt "legend" [] ∅ else ret tt
  | None => ret tt
  end.

(** [DataMonitor.animate]: one render tick.  The frame number [i] is not
    used. *)
Definition animate (arrivals : list Value) (i : nat) : M unit :=
  data ← data_getter arrivals;
  m ← get_self;
  (if clear_axes m then plt "cla" [] ∅ else ret tt) ;;
  plot data ;;
  apply_plt_kwargs.

(** ** Lifecycle *)

(** [DataMonitor.__init__], run against the pyplot log [log].  [fig_ax]
    is [None] for the defaults [()] and [None]. *)
Definition __init__ (data : Value)
    (channels : option (list (gmap string Value))) (update_rate : Z)
    (fig_ax : option (Value * Value))
    (plt_kwargs : list (string * (list Value * gmap string Value)))
    (clear_axes : bool) (fig_kwargs : gmap string Value)
    (log : list PltCall) : World :=
  let '(fig, ax, log') :=
    match fig_ax with
    | None => (Created "figure", Created "gca",
               log ++ [Call "figure" [] fig_kwargs; Call "gca" [] ∅])
    | Some (f, a) => (Supplied f, Supplied a, log)
    end in
  {| self := {| _data := data; channels := channels;
                clear_axes := clear_axes; fig := fig; ax := ax;
                fig_kwargs := fig_kwargs; plt_kwargs := plt_kwargs;
                _func_animation := None; update_rate := update_rate;
                _show_process := None; _data_queue := None |};
     pyplot := log' |}.

(** [DataMonitor.start], on the side of the caller: the worker it spawns
    runs [show] on its own copy of the object. *)
Definition start : M unit :=
  m ← get_self;
  put_self (with_queue (Some Queue.new) m) ;;
  m ← get_self;
  put_self (with_process (Some Process.Initial) m) ;;
  on_process Process.start.


(** [DataMonitor.__enter__]; the [with] statement receives [self]. *)
Definition __enter__ : M unit := start.

(** [DataMonitor.__del__]. *)
Definition __del__ : M unit :=
  m ← get_self;
  (match _data_queue m with
   | Some _ => on_queue Queue.close
   | None => ret tt
   end) ;;
  m ← get_self;
  match _show_process m with
  | Some _ => on_process Process.terminate ;; on_process Process.join
  | None => ret tt
  end.

(** *** References

    [__exit__] consists of a [del] statement, and what [del] does depends on
    how many references the object has.  An object is its world and the
    number of references to it; [__del__] runs when the last one goes, and
    an exception it raises is dropped. *)

Record Obj : Type := {
  world : World;
  refcount : nat
}.

Definition incref (o : Obj) : Obj :=
  {| world := world o; refcount := S (refcount o) |}.

Definition decref (o : Obj) : Obj :=
  match refcount o with
  | O => o
  | S O => {| world := snd (__del__ (world o)); refcount := O |}
  | S n => {| world := world o; refcount := n |}
  end.

Definition run {A} (c : M A) (o : Obj) : Result A * Obj :=
  let '(r, w) := c (world o) in
  (r, {| world := w; refcount := refcount o |}).

(** [DataMonitor.__exit__]: the call binds the parameter [self], a new
    reference, and the body [del self] removes that binding. *)
Definition __exit__ (o : Obj) : Obj :=
  decref (incref o).

(** [with <constructor call> as dm: body].  The statement holds the context
    manager until [__exit__] has returned; [dm] stays bound after the
    block.  [__exit__] returns [None], so an exception of the body
    propagates. *)
Definition with_as (construct : list PltCall -> World) (body : M unit)
    (log : list PltCall) : Result unit * Obj :=
  let mgr := {| world := construct log; refcount := 1 |} in
  match run __enter__ mgr with
  | (Raise e, mgr) => (Raise e, decref mgr)
  | (Ok tt, mgr) =>
      let dm := incref mgr in
      let '(r, dm) := run body dm in
      let dm := __exit__ dm in
      (r, decref dm)
  end.

(** [with <constructor call>: body], without a target. *)
Definition with_ (construct : list PltCall -> World) (body : M unit)
    (log : list PltCall) : Result unit * Obj :=
  let mgr := {| world := construct log; refcount := 1 |} in
  match run __enter__ mgr with
  | (Raise e, mgr) => (Raise e, decref mgr)
  | (Ok tt, mgr) =>
      let '(r, mgr) := run body mgr in
      let mgr := __exit__ mgr in
      (r, decref mgr)
  end.

Definition worker_alive (m : DataMonitor) : bool :=
  match _show_process m with
  | Some p => Process.is_alive p
  | None => false
  end.

Definition queue_closed (m : DataMonitor) : bool :=
  match _data_queue m with
  | Some q => Queue.closed q
  | None => false
  end.

(** ** Vocabulary of the statements *)

(** The world after pyplot has received the calls [cs]. *)
Definition log_calls (cs : list PltCall) (w : World) : World :=
  {| self := self w; pyplot := pyplot w ++ cs |}.

(** The world in which the object is [m]. *)
Definition with_self (m : DataMonitor) (w : World) : World :=
  {| self := m; pyplot := pyplot w |}.

(** The call that one entry of [plt_kwargs] asks for. *)
Definition directive_call (d : string * (list Value * gmap string Value))
    : PltCall :=
  Call d.1 d.2.1 d.2.2.




(** The legend refresh that closes [apply_plt_kwargs], as calls. *)
Definition legend_calls (chs : option (list (gmap string Value)))
    : list PltCall :=
  match chs with
  | Some cs => if existsb has_label cs then [Call "legend" [] ∅] else []
  | None => []
  end.



(** [n] consecutive reads of the data property, nothing arriving
    meanwhile; the values read, in order. *)
Fixpoint read_n (n : nat) : M (list Value) :=
  match n with
  | O => ret []
  | S n' => v ← data_getter []; vs ← read_n n'; ret (v :: vs)
  end.

(** The render tick fetches the most recently enqueued Sample: the last
    one among those pending and those arriving in the wait window. *)
Definition fetches_most_recent (arrivals : list Value) (w : World) : Prop :=
  ∀ q v, _data_queue (self w) = Some q →
    last (Queue.items q ++ arrivals) = Some v →
    (data_getter arrivals w).1 = Ok v.


(** A started monitor on which [values] have been written, in order. *)
Definition started_with (values : list Value) (initial : World)
    : Result unit * World :=
  (start ;; for_each values data_setter) initial.

(** A started monitor with two Samples pending: [1] was written first,
    [2] last. *)
Definition pending_two : World :=
  (started_with [VNum 1; VNum 2]
     (__init__ VNone None 1 None [] true ∅ [])).2.

(** The scenario of the specification: a Sample of three rows, two
    channel descriptors, one formatting directive; the monitor is started
    and nothing has been written. *)
Definition three_rows : Value :=
  VSeq [VSeq [VNum 0; VNum 1; VNum 2];
        VSeq [VNum 0; VNum 1; VNum 0];
        VSeq [VNum 2; VNum 1; VNum 2]].

Definition two_channels : list (gmap string Value) :=
  [{["label" := VStr "Channel 1"]}; {["color" := VStr "tab:orange"]}].

Definition xlim_directive : string * (list Value * gmap string Value) :=
  ("xlim", ([VNum 0; VNum 10], ∅)).

Definition scenario (chs : option (list (gmap string Value))) : World :=
  (started_with []
     (__init__ three_rows chs 1 None [xlim_directive] true ∅ [])).2.

(** ** Producer and worker as sequences of operations *)

(** One use of the data property by the producer. *)
Inductive Op : Type :=
  | Write (value : Value)
  | Read.

(** The operations [ops] in order; the values that the reads returned. *)
Fixpoint run_ops (ops : list Op) : M (list Value) :=
  match ops with
  | [] => ret []
  | Write value :: ops' => data_setter value ;; run_ops ops'
  | Read :: ops' => v ← data_getter []; vs ← run_ops ops'; ret (v :: vs)
  end.

(** The values that [ops] write, in order. *)
Fixpoint written (ops : list Op) : list Value :=
  match ops with
  | [] => []
  | Write value :: ops' => value :: written ops'
  | Read :: ops' => written ops'
  end.

(** The number of reads among [ops]. *)
Fixpoint reads (ops : list Op) : nat :=
  match ops with
  | [] => O
  | Write _ :: ops' => reads ops'
  | Read :: ops' => S (reads ops')
  end.

(** The timer of the animation: one call of [animate] per frame, from
    frame number [i] on; a frame is given by what arrives in its wait
    window. *)
Fixpoint ticks (i : nat) (frames : list (list Value)) : M unit :=
  match frames with
  | [] => ret tt
  | arrivals :: frames' => animate arrivals i ;; ticks (S i) frames'
  end.



(** What a render tick leaves alone: the configuration and the handles of
    the object are the same in [w'] as in [w], and the log of [w'] extends
    the log of [w]. *)
Definition keeps_config (w w' : World) : Prop :=
  channels (self w') = channels (self w)
  ∧ clear_axes (self w') = clear_axes (self w)
  ∧ plt_kwargs (self w') = plt_kwargs (self w)
  ∧ fig_kwargs (self w') = fig_kwargs (self w)
  ∧ fig (self w') = fig (self w)
  ∧ ax (self w') = ax (self w)
  ∧ update_rate (self w') = update_rate (self w)
  ∧ _func_animation (self w') = _func_animation (self w)
  ∧ _show_process (self w') = _show_process (self w)
  ∧ (∃ calls, pyplot w' = pyplot w ++ calls).

(** A computation that keeps the configuration, from every world. *)
Definition Keeps {A} (c : M A) : Prop :=
  ∀ w, keeps_config w (c w).2.

(** * Proofs *)

Ltac unfold_m :=
  unfold mbind, M_bind, bind, mret, M_ret, ret, raise, lift, get_self,
    put_self, with_self, log_calls in *.

(** ** The data handoff *)

Section Handoff.

Variable w : World.
Variable q : Queue.t.
Hypothesis queue_set : _data_queue (self w) = Some q.

(** A write appends to the queue, whatever is pending. *)
Lemma data_setter_run (value : Value) :
  Queue.closed q = false →
  data_setter value w =
    (Ok tt,
     with_self (with_queue
       (Some (Queue.Make (Queue.items q ++ [value]) false)) (self w)) w).
Proof using queue_set.
  intros Hopen. unfold data_setter, on_queue, Queue.put. unfold_m.
  rewrite queue_set, Hopen. reflexivity.
Qed.

(** A read with something to return: the head of the queue is stored
    and returned. *)
Lemma data_getter_some (arrivals : list Value) (v : Value) (rest : list Value) :
  Queue.closed q = false →
  Queue.items q ++ arrivals = v :: rest →
  data_getter arrivals w =
    (Ok v,
     with_self (with_data v
       (with_queue (Some (Queue.Make rest false)) (self w))) w).
Proof using queue_set.
  intros Hopen Hitems.
  unfold data_getter, data_getter_with, try_except, on_queue, Queue.get.
  unfold_m. rewrite queue_set, Hopen, Hitems. reflexivity.
Qed.

(** A read with nothing to return within the window. *)
Lemma data_getter_none (arrivals : list Value) :
  Queue.closed q = false →
  Queue.items q ++ arrivals = [] →
  data_getter arrivals w =
    (Ok (_data (self w)), with_self (with_queue (Some q) (self w)) w).
Proof using queue_set.
  intros Hopen Hitems.
  unfold data_getter, data_getter_with, try_except, on_queue, Queue.get.
  unfold_m. rewrite queue_set, Hopen, Hitems. reflexivity.
Qed.

End Handoff.

(** [start] installs an empty open queue and a running worker. *)
Lemma start_run (w : World) :
  start w =
    (Ok tt,
     with_self (with_process (Some Process.Running)
       (with_queue (Some Queue.new) (self w))) w).
Proof. reflexivity. Qed.

(** Updating a world with what it already holds changes nothing. *)
Lemma with_queue_same (w : World) (q : Queue.t) :
  _data_queue (self w) = Some q →
  with_self (with_queue (Some q) (self w)) w = w.
Proof.
  destruct w as [m log]; destruct m; simpl; intros ->; reflexivity.
Qed.

(** A sequence of writes appends the values in the order written. *)
Lemma setters_run (values : list Value) :
  ∀ (w : World) (q : Queue.t),
    _data_queue (self w) = Some q →
    Queue.closed q = false →
    for_each values data_setter w =
      (Ok tt,
       with_self (with_queue
         (Some (Queue.Make (Queue.items q ++ values) false)) (self w)) w).
Proof.
  induction values as [|v values IH]; intros w q Hq Hopen.
  - simpl. rewrite app_nil_r. unfold_m. f_equal.
    destruct q as [l c]; simpl in *; subst c.
    symmetry. apply (with_queue_same w _ Hq).
  - cbn [for_each]. unfold mbind, M_bind, bind.
    rewrite (data_setter_run w q Hq v Hopen).
    erewrite IH; [| reflexivity | reflexivity].
    simpl. rewrite <- app_assoc. reflexivity.
Qed.

(** The value that stays in the slot once [pending] has been read out. *)
Lemma last_held (held v : Value) (pending : list Value) :
  default v (last pending) = default held (last (v :: pending)).
Proof.
  destruct pending as [|v0 pending]; [reflexivity|].
  change (last (v :: v0 :: pending)) with (last (v0 :: pending)).
  destruct (last (v0 :: pending)) eqn:Hlast; [reflexivity|].
  apply last_None in Hlast. discriminate.
Qed.

(** Consecutive reads return the pending values oldest first, then keep
    returning the value read last. *)
Lemma read_n_run (n : nat) :
  ∀ (w : World) (q : Queue.t),
    _data_queue (self w) = Some q →
    Queue.closed q = false →
    (read_n n w).1 =
      Ok (take n (Queue.items q)
          ++ replicate (n - length (Queue.items q))
               (default (_data (self w)) (last (Queue.items q)))).
Proof.
  induction n as [|n IH]; intros w q Hq Hopen; [reflexivity|].
  cbn [read_n]. unfold mbind, M_bind, bind.
  destruct (Queue.items q) as [|v rest] eqn:Hitems.
  - rewrite (data_getter_none w q Hq [] Hopen) by (rewrite Hitems; reflexivity).
    specialize (IH (with_self (with_queue (Some q) (self w)) w) q eq_refl Hopen).
    rewrite Hitems, take_nil, Nat.sub_0_r in IH. simpl in IH.
    destruct (read_n n _) as [[vs|e] w']; simpl in IH; [|discriminate].
    injection IH as ->. reflexivity.
  - rewrite (data_getter_some w q Hq [] v rest Hopen)
      by (rewrite Hitems, app_nil_r; reflexivity).
    match goal with |- context [read_n n ?w1] =>
      specialize (IH w1 (Queue.Make rest false) eq_refl eq_refl) end.
    destruct (read_n n _) as [[vs|e] w']; simpl in IH; [|discriminate].
    injection IH as ->. unfold_m. simpl.
    rewrite (last_held (_data (self w)) v rest). reflexivity.
Qed.


(** C1, as stated: the fetch yields the most recently enqueued Sample.
    It fails on a queue holding two Samples: the fetch yields the one
    written first. *)
Lemma fetch_most_recent_fails : ¬ fetches_most_recent [] pending_two.
Proof.
  intros Hclaim.
  specialize (Hclaim (Queue.Make [VNum 1; VNum 2] false) (VNum 2)
                eq_refl eq_refl).
  vm_compute in Hclaim. discriminate.
Qed.

(** A read on an open queue returns the oldest value among the pending
    ones and the arrivals, stores it and removes it from the queue; with
    nothing to return it returns the stored value and changes nothing. *)
Lemma data_getter_run (arrivals : list Value) (w : World) (q : Queue.t) :
  _data_queue (self w) = Some q →
  Queue.closed q = false →
  ∃ w',
    data_getter arrivals w
      = (Ok (hd (_data (self w)) (Queue.items q ++ arrivals)), w')
    ∧ _data (self w') = hd (_data (self w)) (Queue.items q ++ arrivals)
    ∧ _data_queue (self w')
      = Some (Queue.Make (tl (Queue.items q ++ arrivals)) false)
    ∧ (Queue.items q ++ arrivals = [] → w' = w).
Proof.
  intros Hq Hopen.
  destruct (Queue.items q ++ arrivals) as [|v rest] eqn:Hitems.
  - rewrite (data_getter_none w q Hq arrivals Hopen Hitems).
    eexists. split; [reflexivity|]. simpl.
    split; [reflexivity|]. split.
    + apply app_eq_nil in Hitems as [Hitems _].
      destruct q as [l c]; simpl in *; subst; reflexivity.
    + intros _. apply (with_queue_same w q Hq).
  - rewrite (data_getter_some w q Hq arrivals v rest Hopen Hitems).
    eexists. split; [reflexivity|]. simpl.
    split; [reflexivity|]. split; [reflexivity | discriminate].
Qed.

(** C1, amended: on an open queue, the fetch of a render tick yields the
    oldest Sample among those pending and those arriving within the wait
    window, which is the most recently enqueued one when it is the only
    one; the fetch stores it as the held Sample and removes it from the
    queue.  When none is available within the window the fetch yields the
    previously held Sample and changes nothing. *)
Theorem fetch_oldest_pending (arrivals : list Value) (w : World) (q : Queue.t) :
  _data_queue (self w) = Some q →
  Queue.closed q = false →
  let available := Queue.items q ++ arrivals in
  let fetched := data_getter arrivals w in
  (∀ v rest, available = v :: rest →
     fetched.1 = Ok v
     ∧ _data (self fetched.2) = v
     ∧ _data_queue (self fetched.2) = Some (Queue.Make rest false)
     ∧ (rest = [] → last available = Some v))
  ∧ (available = [] → fetched = (Ok (_data (self w)), w)).
Proof.
  intros Hq Hopen available fetched.
  destruct (data_getter_run arrivals w q Hq Hopen)
    as (w' & Hget & Hdata & Hqueue & Hsame).
  fold available in Hget, Hdata, Hqueue, Hsame. subst fetched.
  rewrite Hget. simpl. split.
  - intros v rest Havail. rewrite Hdata, Hqueue, Havail. simpl.
    repeat split. by intros ->.
  - intros Havail. rewrite (Hsame Havail), Havail. reflexivity.
Qed.

Lemma fetch_oldest_pending_witness :
  let available := [VNum 1; VNum 2] ++ [VNum 3] in
  let fetched := data_getter [VNum 3] pending_two in
  (∀ v rest, available = v :: rest →
     fetched.1 = Ok v
     ∧ _data (self fetched.2) = v
     ∧ _data_queue (self fetched.2) = Some (Queue.Make rest false)
     ∧ (rest = [] → last available = Some v))
  ∧ (available = [] → fetched = (Ok (_data (self pending_two)), pending_two)).
Proof.
  exact (fetch_oldest_pending [VNum 3] pending_two
           (Queue.Make [VNum 1; VNum 2] false) eq_refl eq_refl).
Defined.







(** ** Lifecycle *)

(** [__del__] on a started monitor closes the queue and terminates and
    joins the worker. *)
Lemma del_cleans_up (w : World) (q : Queue.t) :
  _data_queue (self w) = Some q →
  _show_process (self w) = Some Process.Running →
  ∃ w', __del__ w = (Ok tt, w')
    ∧ _show_process (self w') = Some Process.Joined
    ∧ worker_alive (self w') = false
    ∧ queue_closed (self w') = true.
Proof.
  intros Hq Hp. unfold __del__, on_queue, on_process. unfold_m.
  repeat (rewrite ?Hq, ?Hp; simpl). eexists. repeat split.
Qed.

(** [__exit__] changes nothing on an object that someone else still
    refers to, as its caller does. *)
Lemma exit_changes_nothing (o : Obj) :
  (1 ≤ refcount o)%nat → __exit__ o = o.
Proof.
  destruct o as [w [|n]]; simpl; [lia|]. reflexivity.
Qed.

(** C5, on the code: after [with DataMonitor(...) as dm: body], whether the
    body returns or raises, the object is still referred to by [dm], its
    worker is still running and its queue is still open: [__exit__] has not
    run the cleanup of [__del__]. *)
Theorem exit_leaves_worker_running (data : Value)
    (chs : option (list (gmap string Value))) (rate : Z)
    (fig_ax : option (Value * Value))
    (pk : list (string * (list Value * gmap string Value)))
    (clear : bool) (fk : gmap string Value) (log : list PltCall)
    (outcome : Result unit) :
  ∃ o,
    with_as (__init__ data chs rate fig_ax pk clear fk) (lift outcome) log
      = (outcome, o)
    ∧ refcount o = 1%nat
    ∧ _show_process (self (world o)) = Some Process.Running
    ∧ worker_alive (self (world o)) = true
    ∧ queue_closed (self (world o)) = false.
Proof.
  eexists. repeat split.
Qed.

(** C9: on a monitor that has been constructed and not started, the queue
    slot and the process slot are [None]; reading and writing the data
    property raise [AttributeError] and change nothing; [__del__] returns
    without raising and changes nothing. *)
Theorem unstarted_monitor (data : Value)
    (chs : option (list (gmap string Value))) (rate : Z)
    (fig_ax : option (Value * Value))
    (pk : list (string * (list Value * gmap string Value)))
    (clear : bool) (fk : gmap string Value) (log : list PltCall)
    (arrivals : list Value) (value : Value) :
  let w := __init__ data chs rate fig_ax pk clear fk log in
  _data_queue (self w) = None
  ∧ _show_process (self w) = None
  ∧ data_getter arrivals w = (Raise AttributeError, w)
  ∧ data_setter value w = (Raise AttributeError, w)
  ∧ __del__ w = (Ok tt, w).
Proof.
  destruct fig_ax as [[f a]|]; repeat split.
Qed.

(** ** Plotting *)

Lemma log_calls_nil (w : World) : log_calls [] w = w.
Proof. destruct w as [m log]. unfold log_calls. simpl. by rewrite app_nil_r. Qed.

Lemma log_calls_app (cs1 cs2 : list PltCall) (w : World) :
  log_calls cs2 (log_calls cs1 w) = log_calls (cs1 ++ cs2) w.
Proof. unfold log_calls. simpl. by rewrite app_assoc. Qed.

(** A loop whose body makes one pyplot call per element, on every world
    holding the same object, makes these calls in the order of the
    elements. *)
Lemma for_each_calls {A} (call : A → PltCall) (body : A → M unit) (xs : list A) :
  ∀ w,
    (∀ x w0, x ∈ xs → self w0 = self w →
       body x w0 = (Ok tt, log_calls [call x] w0)) →
    for_each xs body w = (Ok tt, log_calls (call <$> xs) w).
Proof.
  induction xs as [|x xs IH]; intros w Hbody.
  - simpl. by rewrite log_calls_nil.
  - cbn [for_each]. unfold mbind, M_bind, bind.
    rewrite Hbody by (done || left).
    rewrite IH by (intros; apply Hbody; [by right | done]).
    by rewrite log_calls_app.
Qed.





(** [apply_plt_kwargs] makes the call of every directive, in the order of
    the dictionary, and then the legend refresh. *)
Lemma apply_plt_kwargs_run (w : World) :
  apply_plt_kwargs w
    = (Ok tt,
       log_calls ((directive_call <$> plt_kwargs (self w))
                  ++ legend_calls (channels (self w))) w).
Proof.
  unfold apply_plt_kwargs. unfold mbind at 1 2. unfold M_bind, bind, get_self.
  rewrite (for_each_calls directive_call).
  - rewrite <- log_calls_app. unfold mbind, M_bind, bind. cbn [self log_calls].
    unfold legend_calls.
    destruct (channels (self w)) as [cs|].
    + destruct (existsb has_label cs); [reflexivity|].
      unfold ret. by rewrite log_calls_nil.
    + unfold ret. by rewrite log_calls_nil.
  - intros [attribute [args kwargs]] w0 _ _. reflexivity.
Qed.








(** C8: [apply_plt_kwargs] returns and has called, for each entry of
    [plt_kwargs] in turn, the pyplot attribute named by the entry with the
    positional and keyword arguments of the entry, followed by nothing but
    the legend refresh; with the directive [{'xlim': ((0, 10), {})}] the
    call is [xlim(0, 10)]. *)
Theorem directives_applied (w : World) (data : Value)
    (chs : option (list (gmap string Value))) (rate : Z)
    (fig_ax : option (Value * Value)) (clear : bool)
    (fk : gmap string Value) (log : list PltCall) :
  let w_xlim := __init__ data chs rate fig_ax [xlim_directive] clear fk log in
  ∃ legend legend_xlim,
    apply_plt_kwargs w
      = (Ok tt,
         log_calls ((directive_call <$> plt_kwargs (self w)) ++ legend) w)
    ∧ (legend = [] ∨ legend = [Call "legend" [] ∅])
    ∧ pyplot (apply_plt_kwargs w_xlim).2
      = pyplot w_xlim ++ Call "xlim" [VNum 0; VNum 10] ∅ :: legend_xlim.
Proof.
  intros w_xlim.
  exists (legend_calls (channels (self w))),
         (legend_calls (channels (self w_xlim))).
  split; [apply apply_plt_kwargs_run|]. split.
  - unfold legend_calls. destruct (channels (self w)) as [cs|]; [|by left].
    destruct (existsb has_label cs); [by right | by left].
  - rewrite apply_plt_kwargs_run. unfold w_xlim, __init__.
    destruct fig_ax as [[f a]|]; reflexivity.
Qed.



(** ** The scenario of the specification *)

(** One render tick on the Sample of three rows with two descriptors draws
    two series, rows 2 and 3 against row 1. *)
Example three_rows_tick :
  pyplot (animate [] 0 (scenario (Some two_channels))).2 =
    [Call "figure" [] ∅; Call "gca" [] ∅; Call "cla" [] ∅;
     Call "plot" [VSeq [VNum 0; VNum 1; VNum 2]; VSeq [VNum 0; VNum 1; VNum 0]]
       {["label" := VStr "Channel 1"]};
     Call "plot" [VSeq [VNum 0; VNum 1; VNum 2]; VSeq [VNum 2; VNum 1; VNum 2]]
       {["color" := VStr "tab:orange"]};
     Call "xlim" [VNum 0; VNum 10] ∅;
     Call "legend" [] ∅].
Proof. reflexivity. Qed.

(** Without a target, the statement drops the last reference after
    [__exit__] has returned, and it is this that runs [__del__]. *)
Example with_no_target :
  ∃ o, with_ (__init__ VNone None 1 None [] true ∅) (ret tt) [] = (Ok tt, o)
    ∧ refcount o = 0%nat
    ∧ worker_alive (self (world o)) = false
    ∧ queue_closed (self (world o)) = true.
Proof. eexists. repeat split. Qed.

(** A tick with fewer descriptors than series raises from the lookup of
    the descriptor, after the series that had one were plotted. *)
Example missing_descriptor :
  let '(r, w) := animate [] 0 (scenario (Some [∅])) in
  r = Raise IndexError
  ∧ pyplot w =
      [Call "figure" [] ∅; Call "gca" [] ∅; Call "cla" [] ∅;
       Call "plot" [VSeq [VNum 0; VNum 1; VNum 2]; VSeq [VNum 0; VNum 1; VNum 0]] ∅].
Proof. split; reflexivity. Qed.

(** * Further properties of the code *)

(** ** The data property under arbitrary use *)

(** An exception of the dequeue other than a timeout or an empty condition
    is not caught: the getter raises it, and the stored [_data] stays. *)
Theorem getter_propagates_other
    (dequeue : Queue.t → Result Value * Queue.t) (w : World) (q : Queue.t)
    (e : Exn) :
  _data_queue (self w) = Some q →
  (dequeue q).1 = Raise e →
  e ≠ TimeoutError →
  e ≠ Empty →
  (data_getter_with dequeue w).1 = Raise e
  ∧ _data (self (data_getter_with dequeue w).2) = _data (self w).
Proof.
  intros Hq Hraise Hne1 Hne2.
  unfold data_getter_with, try_except, on_queue. unfold_m.
  rewrite Hq. destruct (dequeue q) as [r q']. simpl in Hraise. subst r.
  destruct e; try done.
Qed.

Lemma getter_propagates_other_witness :
  let w := with_self (with_queue (Some (Queue.Make [VNum 5] true))
                        (self pending_two)) pending_two in
  (data_getter_with (Queue.get []) w).1 = Raise ValueError
  ∧ _data (self (data_getter_with (Queue.get []) w).2) = _data (self w).
Proof.
  apply (getter_propagates_other (Queue.get []) _ (Queue.Make [VNum 5] true));
    [reflexivity | reflexivity | discriminate | discriminate].
Defined.

(** Writes to an open queue never raise, however many values are pending:
    the values are appended in the order written, and the stored [_data],
    the worker and the pyplot log are left as they were. *)
Theorem writes_accumulate (values : list Value) (w : World) (q : Queue.t) :
  _data_queue (self w) = Some q →
  Queue.closed q = false →
  ∃ w',
    for_each values data_setter w = (Ok tt, w')
    ∧ _data_queue (self w')
      = Some (Queue.Make (Queue.items q ++ values) false)
    ∧ _data (self w') = _data (self w)
    ∧ _show_process (self w') = _show_process (self w)
    ∧ pyplot w' = pyplot w.
Proof.
  intros Hq Hopen. rewrite (setters_run values w q Hq Hopen).
  eexists. repeat split.
Qed.

Lemma writes_accumulate_witness :
  ∃ w',
    for_each [VNum 3; VNum 4] data_setter pending_two = (Ok tt, w')
    ∧ _data_queue (self w')
      = Some (Queue.Make ([VNum 1; VNum 2] ++ [VNum 3; VNum 4]) false)
    ∧ _data (self w') = _data (self pending_two)
    ∧ _show_process (self w') = _show_process (self pending_two)
    ∧ pyplot w' = pyplot pending_two.
Proof.
  exact (writes_accumulate [VNum 3; VNum 4] pending_two
           (Queue.Make [VNum 1; VNum 2] false) eq_refl eq_refl).
Defined.

(** Any interleaving of writes and reads on an open queue returns, and
    conserves the values: those consumed by the reads, followed by those
    still pending, are those that were pending followed by those written,
    in the same order.  Each read returns the value held at the start or a
    consumed value, the value held at the end is the last one consumed,
    and no read consumes more than one value. *)
Theorem interleaving_conserves (ops : list Op) :
  ∀ (w : World) (q : Queue.t),
    _data_queue (self w) = Some q →
    Queue.closed q = false →
    ∃ w' results consumed rest,
      run_ops ops w = (Ok results, w')
      ∧ _data_queue (self w') = Some (Queue.Make rest false)
      ∧ consumed ++ rest = Queue.items q ++ written ops
      ∧ _data (self w') = default (_data (self w)) (last consumed)
      ∧ Forall (λ r, r ∈ _data (self w) :: consumed) results
      ∧ length results = reads ops
      ∧ (length consumed ≤ reads ops)%nat.
Proof.
  induction ops as [|[value|] ops IH]; intros w q Hq Hopen.
  - exists w, [], [], (Queue.items q). simpl. rewrite app_nil_r.
    repeat split; [|constructor|lia].
    destruct q as [l c]; simpl in *; by subst.
  - cbn [run_ops written reads]. unfold mbind, M_bind, bind.
    rewrite (data_setter_run w q Hq value Hopen).
    match goal with |- context [run_ops ops ?w1] =>
      destruct (IH w1 (Queue.Make (Queue.items q ++ [value]) false)
                  eq_refl eq_refl)
        as (w' & results & consumed & rest & Hrun & Hq' & Hcons & Hheld
            & Hin & Hlen & Hbound) end.
    exists w', results, consumed, rest. rewrite Hrun.
    simpl in Hcons. rewrite <- app_assoc in Hcons.
    repeat split; done.
  - cbn [run_ops written reads]. unfold mbind, M_bind, bind.
    destruct (data_getter_run [] w q Hq Hopen)
      as (w1 & Hget & Hdata1 & Hq1 & _).
    rewrite Hget. rewrite app_nil_r in Hget, Hdata1, Hq1.
    destruct (IH w1 _ Hq1 eq_refl)
      as (w' & results & consumed & rest & Hrun & Hq' & Hcons & Hheld
          & Hin & Hlen & Hbound).
    rewrite Hrun. unfold ret. simpl in Hcons.
    destruct (Queue.items q) as [|v pending] eqn:Hitems; simpl in *.
    + exists w', (_data (self w) :: results), consumed, rest.
      rewrite Hdata1 in Hheld, Hin.
      repeat split; try done; try (simpl; lia).
      constructor; [by left | done].
    + exists w', (v :: results), (v :: consumed), rest.
      rewrite Hdata1 in Hheld, Hin.
      repeat split; try done; try (simpl; lia).
      * simpl. by rewrite Hcons.
      * by rewrite <- (last_held (_data (self w)) v consumed).
      * constructor; [right; by left|].
        eapply Forall_impl; [exact Hin|]. intros r Hr. simpl in Hr.
        right. exact Hr.
Qed.

Lemma interleaving_conserves_witness :
  let ops := [Read; Write (VNum 3); Read; Read; Read; Write (VNum 4)] in
  ∃ w' results consumed rest,
    run_ops ops pending_two = (Ok results, w')
    ∧ _data_queue (self w') = Some (Queue.Make rest false)
    ∧ consumed ++ rest = [VNum 1; VNum 2] ++ written ops
    ∧ _data (self w') = default (_data (self pending_two)) (last consumed)
    ∧ Forall (λ r, r ∈ _data (self pending_two) :: consumed) results
    ∧ length results = reads ops
    ∧ (length consumed ≤ reads ops)%nat.
Proof.
  exact (interleaving_conserves
           [Read; Write (VNum 3); Read; Read; Read; Write (VNum 4)]
           pending_two (Queue.Make [VNum 1; VNum 2] false) eq_refl eq_refl).
Defined.

(** ** Lifecycle, continued *)

(** A read on an open queue with nothing pending returns the stored value
    and changes nothing, as often as it is repeated. *)
Lemma read_n_stale (n : nat) (w : World) (q : Queue.t) :
  _data_queue (self w) = Some q →
  Queue.closed q = false →
  Queue.items q = [] →
  (read_n n w).1 = Ok (replicate n (_data (self w))).
Proof.
  intros Hq Hopen Hitems. rewrite (read_n_run n w q Hq Hopen), Hitems.
  by rewrite take_nil, Nat.sub_0_r.
Qed.

(** [start] has no guard: called on a monitor with values pending, it
    installs a new empty queue, and the values written before are never
    read back; the reads return the value that was stored all along. *)
Theorem restart_discards_pending (values : list Value) (n : nat) (w : World)
    (q : Queue.t) :
  _data_queue (self w) = Some q →
  Queue.closed q = false →
  ((for_each values data_setter ;; start ;; read_n n) w).1
    = Ok (replicate n (_data (self w)))
  ∧ _data_queue (self ((for_each values data_setter ;; start) w).2)
    = Some Queue.new
  ∧ _show_process (self ((for_each values data_setter ;; start) w).2)
    = Some Process.Running.
Proof.
  intros Hq Hopen. unfold mbind, M_bind, bind.
  rewrite (setters_run values w q Hq Hopen), start_run.
  split; [|done].
  match goal with |- context [read_n n ?w1] =>
    apply (read_n_stale n w1 Queue.new eq_refl eq_refl eq_refl) end.
Qed.

Lemma restart_discards_pending_witness :
  ((for_each [VNum 3] data_setter ;; start ;; read_n 2) pending_two).1
    = Ok (replicate 2 (_data (self pending_two)))
  ∧ _data_queue (self ((for_each [VNum 3] data_setter ;; start) pending_two).2)
    = Some Queue.new
  ∧ _show_process (self ((for_each [VNum 3] data_setter ;; start) pending_two).2)
    = Some Process.Running.
Proof.
  exact (restart_discards_pending [VNum 3] 2 pending_two
           (Queue.Make [VNum 1; VNum 2] false) eq_refl eq_refl).
Defined.

(** [__del__] on a monitor with a queue and a running worker returns
    without raising: the worker is terminated and joined, the queue is
    closed with its pending values left in it, and the stored [_data] and
    the pyplot log are untouched. *)
Theorem del_terminates_and_closes (w : World) (q : Queue.t) :
  _data_queue (self w) = Some q →
  _show_process (self w) = Some Process.Running →
  __del__ w =
    (Ok tt,
     with_self (with_process (Some Process.Joined)
       (with_queue (Some (Queue.Make (Queue.items q) true)) (self w))) w).
Proof.
  intros Hq Hp. unfold __del__, on_queue, on_process. unfold_m.
  repeat (rewrite ?Hq, ?Hp; simpl). reflexivity.
Qed.

Lemma del_terminates_and_closes_witness :
  __del__ pending_two =
    (Ok tt,
     with_self (with_process (Some Process.Joined)
       (with_queue (Some (Queue.Make [VNum 1; VNum 2] true))
          (self pending_two))) pending_two).
Proof.
  exact (del_terminates_and_closes pending_two
           (Queue.Make [VNum 1; VNum 2] false) eq_refl eq_refl).
Defined.

(** The cleanup of [__del__], for the proofs below. *)
Lemma del_run (w : World) (q : Queue.t) :
  _data_queue (self w) = Some q →
  _show_process (self w) = Some Process.Running →
  __del__ w =
    (Ok tt,
     with_self (with_process (Some Process.Joined)
       (with_queue (Some (Queue.Make (Queue.items q) true)) (self w))) w).
Proof.
  intros Hq Hp. unfold __del__, on_queue, on_process. unfold_m.
  repeat (rewrite ?Hq, ?Hp; simpl). reflexivity.
Qed.

(** Running [__del__] a second time raises nothing and changes nothing. *)
Theorem del_twice (w : World) (q : Queue.t) :
  _data_queue (self w) = Some q →
  _show_process (self w) = Some Process.Running →
  (__del__ ;; __del__) w = __del__ w.
Proof.
  intros Hq Hp. unfold mbind, M_bind, bind.
  rewrite (del_run w q Hq Hp). reflexivity.
Qed.

Lemma del_twice_witness : (__del__ ;; __del__) pending_two = __del__ pending_two.
Proof.
  exact (del_twice pending_two (Queue.Make [VNum 1; VNum 2] false)
           eq_refl eq_refl).
Defined.

(** After the cleanup of [__del__] the data property is unusable: a write
    raises [ValueError], and so does a read, whatever arrives, since the
    getter catches timeouts only; the pending values and the stored
    [_data] stay as they were. *)
Theorem data_after_del (w : World) (q : Queue.t) (value : Value)
    (arrivals : list Value) :
  _data_queue (self w) = Some q →
  _show_process (self w) = Some Process.Running →
  let w' := (__del__ w).2 in
  (data_setter value w').1 = Raise ValueError
  ∧ (data_getter arrivals w').1 = Raise ValueError
  ∧ (data_setter value w').2 = w'
  ∧ (data_getter arrivals w').2 = w'.
Proof.
  intros Hq Hp w'. subst w'. rewrite (del_run w q Hq Hp).
  repeat split.
Qed.

Lemma data_after_del_witness :
  let w' := (__del__ pending_two).2 in
  (data_setter (VNum 9) w').1 = Raise ValueError
  ∧ (data_getter [VNum 8] w').1 = Raise ValueError
  ∧ (data_setter (VNum 9) w').2 = w'
  ∧ (data_getter [VNum 8] w').2 = w'.
Proof.
  exact (data_after_del pending_two (Queue.Make [VNum 1; VNum 2] false)
           (VNum 9) [VNum 8] eq_refl eq_refl).
Defined.


(** ** Plotting, continued *)









(** ** The render tick, continued *)

(** A tick after its fetch: the axes are cleared on demand, then the
    fetched value is plotted; the formatting is applied only if the plot
    step returns. *)
Lemma animate_after_fetch (arrivals : list Value) (i : nat) (w w1 : World)
    (v : Value) (r : Result unit) (calls : list PltCall) :
  data_getter arrivals w = (Ok v, w1) →
  (∀ w2, self w2 = self w1 → plot v w2 = (r, log_calls calls w2)) →
  animate arrivals i w =
    match r with
    | Ok _ =>
        (Ok tt,
         log_calls ((if clear_axes (self w1) then [Call "cla" [] ∅] else [])
                    ++ calls
                    ++ (directive_call <$> plt_kwargs (self w1))
                    ++ legend_calls (channels (self w1))) w1)
    | Raise e =>
        (Raise e,
         log_calls ((if clear_axes (self w1) then [Call "cla" [] ∅] else [])
                    ++ calls) w1)
    end.
Proof.
  intros Hget Hplot.
  unfold animate. unfold mbind at 1 2 3 4. unfold M_bind, bind, get_self.
  rewrite Hget.
  destruct (clear_axes (self w1)).
  - unfold plt at 1. rewrite Hplot by done.
    destruct r as [[]|e].
    + rewrite apply_plt_kwargs_run. cbn [self log_calls].
      unfold log_calls. simpl. by rewrite <- !app_assoc.
    + unfold log_calls. simpl. by rewrite <- !app_assoc.
  - unfold ret at 1. rewrite Hplot by done.
    destruct r as [[]|e].
    + rewrite apply_plt_kwargs_run. cbn [self log_calls].
      unfold log_calls. simpl. by rewrite <- !app_assoc.
    + reflexivity.
Qed.


(** A tick with nothing to fetch, on a monitor whose stored [_data] cannot
    be unpacked into [x] and the y-part (the default [None], a number, an
    empty sequence): the tick raises the exception of the unpacking, after
    the axes have been cleared if [clear_axes] is set; nothing is plotted,
    no directive is applied, and the object is unchanged. *)
Theorem tick_without_sample (i : nat) (w : World) (q : Queue.t) (e : Exn) :
  _data_queue (self w) = Some q →
  Queue.closed q = false →
  Queue.items q = [] →
  unpack_first_rest (_data (self w)) = Raise e →
  animate [] i w =
    (Raise e,
     log_calls (if clear_axes (self w) then [Call "cla" [] ∅] else []) w).
Proof.
  intros Hq Hopen Hitems Hunpack.
  assert (Hget : data_getter [] w = (Ok (_data (self w)), w)).
  { rewrite (data_getter_none w q Hq [] Hopen) by (by rewrite Hitems).
    by rewrite (with_queue_same w q Hq). }
  rewrite (animate_after_fetch [] i w w (_data (self w)) (Raise e) [] Hget).
  - by rewrite app_nil_r.
  - intros w2 Hself. unfold plot. unfold mbind, M_bind, bind, lift.
    rewrite Hunpack. by rewrite log_calls_nil.
Qed.

Lemma tick_without_sample_witness :
  let w := (started_with [] (__init__ VNone None 1 None [] true ∅ [])).2 in
  animate [] 0 w =
    (Raise TypeError,
     log_calls (if clear_axes (self w) then [Call "cla" [] ∅] else []) w).
Proof.
  exact (tick_without_sample 0
           (started_with [] (__init__ VNone None 1 None [] true ∅ [])).2
           Queue.new TypeError eq_refl eq_refl eq_refl eq_refl).
Defined.








(** ** What a tick leaves alone *)

Lemma keeps_config_refl (w : World) : keeps_config w w.
Proof. repeat split. exists []. by rewrite app_nil_r. Qed.

Lemma keeps_config_trans (w1 w2 w3 : World) :
  keeps_config w1 w2 → keeps_config w2 w3 → keeps_config w1 w3.
Proof.
  intros (H1 & H2 & H3 & H4 & H5 & H6 & H7 & H8 & H9 & cs1 & Hlog1)
         (G1 & G2 & G3 & G4 & G5 & G6 & G7 & G8 & G9 & cs2 & Hlog2).
  repeat split; try congruence.
  exists (cs1 ++ cs2). by rewrite Hlog2, Hlog1, app_assoc.
Qed.

Section Keeps.

Context {A B : Type}.

Lemma Keeps_ret (a : A) : Keeps (ret a).
Proof. intros w. apply keeps_config_refl. Qed.

Lemma Keeps_raise (e : Exn) : Keeps (@raise A e).
Proof. intros w. apply keeps_config_refl. Qed.

Lemma Keeps_lift (r : Result A) : Keeps (lift r).
Proof. intros w. apply keeps_config_refl. Qed.

Lemma Keeps_bind (c : M A) (k : A → M B) :
  Keeps c → (∀ a, Keeps (k a)) → Keeps (c ≫= k).
Proof.
  intros Hc Hk w. unfold mbind, M_bind, bind.
  specialize (Hc w). destruct (c w) as [[a|e] w1]; simpl in Hc; [|done].
  eapply keeps_config_trans; [exact Hc | apply Hk].
Qed.

Lemma Keeps_on_queue (method : Queue.t → Result A * Queue.t) :
  Keeps (on_queue method).
Proof.
  intros w. unfold on_queue. unfold_m.
  destruct (_data_queue (self w)) as [q|]; [|apply keeps_config_refl].
  destruct (method q) as [r q']. simpl.
  repeat split. exists []. by rewrite app_nil_r.
Qed.

Lemma Keeps_index (l : list A) (i : nat) : Keeps (index l i).
Proof.
  unfold index. destruct (l !! i); [apply Keeps_ret | apply Keeps_raise].
Qed.

Lemma Keeps_for_each (xs : list A) (body : A → M unit) :
  (∀ x, Keeps (body x)) → Keeps (for_each xs body).
Proof.
  intros Hbody. induction xs as [|x xs IH]; simpl.
  - intros w. apply keeps_config_refl.
  - intros w. unfold mbind, M_bind, bind.
    pose proof (Hbody x w) as Hx.
    destruct (body x w) as [[[]|e] w1]; simpl in Hx; [|done].
    eapply keeps_config_trans; [exact Hx | apply IH].
Qed.

End Keeps.

Lemma Keeps_get_self : Keeps get_self.
Proof. intros w. apply keeps_config_refl. Qed.

Lemma Keeps_plt (name : string) (args : list Value) (kw : gmap string Value) :
  Keeps (plt name args kw).
Proof. intros w. repeat split. by eexists. Qed.

Lemma Keeps_try_except (body : M unit) (handled : Exn → bool) (handler : M unit) :
  Keeps body → Keeps handler → Keeps (try_except body handled handler).
Proof.
  intros Hbody Hhandler w. unfold try_except.
  specialize (Hbody w). destruct (body w) as [[[]|e] w1]; simpl in *; [done|].
  destruct (handled e); [|done].
  eapply keeps_config_trans; [exact Hbody | apply Hhandler].
Qed.

(** The assignment [self._data = v]. *)
Lemma Keeps_store_data (v : Value) :
  Keeps (m ← get_self; put_self (with_data v m)).
Proof. intros w. repeat split. exists []. by rewrite app_nil_r. Qed.

Lemma Keeps_data_getter_with (dequeue : Queue.t → Result Value * Queue.t) :
  Keeps (data_getter_with dequeue).
Proof.
  unfold data_getter_with.
  apply Keeps_bind; [|intros _; apply Keeps_bind;
                       [apply Keeps_get_self | intros m; apply Keeps_ret]].
  apply Keeps_try_except; [|apply Keeps_ret].
  apply Keeps_bind; [apply Keeps_on_queue | intros v; apply Keeps_store_data].
Qed.

Lemma Keeps_plot (data : Value) : Keeps (plot data).
Proof.
  unfold plot. apply Keeps_bind; [apply Keeps_lift|]. intros [x y].
  apply Keeps_for_each. intros i. unfold plot_one.
  apply Keeps_bind; [apply Keeps_get_self|]. intros m.
  apply Keeps_bind.
  { destruct (channels m); [apply Keeps_index | apply Keeps_ret]. }
  intros c. apply Keeps_bind; [apply Keeps_index|]. intros yi.
  apply Keeps_plt.
Qed.

Lemma Keeps_apply_plt_kwargs : Keeps apply_plt_kwargs.
Proof.
  unfold apply_plt_kwargs.
  apply Keeps_bind; [apply Keeps_get_self|]. intros m.
  apply Keeps_bind.
  { apply Keeps_for_each. intros [attribute [args kwargs]]. apply Keeps_plt. }
  intros _. apply Keeps_bind; [apply Keeps_get_self|]. intros m'.
  destruct (channels m') as [cs|]; [|apply Keeps_ret].
  destruct (existsb has_label cs); [apply Keeps_plt | apply Keeps_ret].
Qed.

Lemma Keeps_animate (arrivals : list Value) (i : nat) : Keeps (animate arrivals i).
Proof.
  unfold animate.
  apply Keeps_bind; [apply Keeps_data_getter_with|]. intros data.
  apply Keeps_bind; [apply Keeps_get_self|]. intros m.
  apply Keeps_bind.
  { destruct (clear_axes m); [apply Keeps_plt | apply Keeps_ret]. }
  intros _. apply Keeps_bind; [apply Keeps_plot|]. intros _.
  apply Keeps_apply_plt_kwargs.
Qed.

(** Whatever the state of the object and whatever arrives, and whether the
    ticks return or one of them raises, a sequence of ticks changes nothing
    of the object but the held Sample and the queue: the channels, the
    directives, the flags, the handles, the animation and the worker
    process are as before, and the calls made to pyplot before are still
    there, in front of the new ones. *)
Theorem ticks_keep_config (frames : list (list Value)) (i : nat) (w : World) :
  keeps_config w (ticks i frames w).2.
Proof.
  revert i w. induction frames as [|arrivals frames IH]; intros i w.
  - apply keeps_config_refl.
  - cbn [ticks]. unfold mbind, M_bind, bind.
    pose proof (Keeps_animate arrivals i w) as Htick.
    destruct (animate arrivals i w) as [[[]|e] w1]; simpl in Htick; [|done].
    eapply keeps_config_trans; [exact Htick | apply IH].
Qed.

(** ** The producer loop of the examples *)

